(** * Compliance data model: a shallow embedding of
    [compliance_pkg/compliance_data_model.py]

    The Python module classifies Twitter compliance messages (one JSON
    object with a single top-level action key) and projects fields out
    of them.  This development mirrors the module: the registry of
    action names, the base class [ComplianceBase] and the five action
    classes that derive from it, with Python exceptions as an explicit
    error monad. *)

From Stdlib Require Import ZArith Bool Lia Ascii String DecimalString.
From stdpp Require Import gmap strings list.

Set Warnings "-register-all".
Open Scope string_scope.

(** ** Python values

    A compliance message is the result of decoding JSON: [None],
    booleans, integers, strings, lists and dictionaries.  A dictionary
    keeps its keys in insertion order ([list(d.keys())[0]] is the first
    key), therefore it is an association list; lookup takes the first
    binding of a key.  Numbers with a fractional part occur in no field
    the module reads and are not part of the model.

    A string is the sequence of its code points, one [ascii] for each:
    the model has the strings whose code points are below 256, which
    cover every key and every action name the module compares with.
    Strings with other code points are not part of the model. *)

Inductive value : Type :=
| VNone
| VBool (b : bool)
| VInt (n : Z)
| VStr (s : string)
| VList (l : list value)
| VDict (d : list (string * value)).

Fixpoint dict_get (d : list (string * value)) (k : string) : option value :=
  match d with
  | [] => None
  | (k', v) :: d' => if String.eqb k' k then Some v else dict_get d' k
  end.

Definition is_None (v : value) : bool :=
  match v with VNone => true | _ => false end.

Definition is_dict (v : value) : bool :=
  match v with VDict _ => true | _ => false end.

(** *** [str] and [repr]

    [UserAction.get_user_id] applies [str] to whatever the lookup
    returned.  Inside a list or a dictionary a string is shown by
    [repr], which escapes the backslash, the quote, and the characters
    that are not printable: below 256 these are the control characters
    0 to 31 and 127 to 159, the no-break space (160) and the soft hyphen
    (173).  The interpreter's limit on the digits of an integer turned
    into text (4300 by default) is not modelled: integers are taken
    below it. *)

Definition str_int (n : Z) : string := NilZero.string_of_int (Z.to_int n).

Definition hex_digit (n : N) : ascii :=
  ascii_of_N (if (n <? 10)%N then 48 + n else 87 + n)%N.

Definition backslash : ascii := ascii_of_N 92.

(** a backslash followed by [s] *)
Definition escape (s : string) : string := String backslash s.

Definition repr_char (quote : ascii) (c : ascii) : string :=
  let n := N_of_ascii c in
  if Ascii.eqb c backslash then escape (String backslash EmptyString)
  else if Ascii.eqb c quote then escape (String c EmptyString)
  else if (n =? 10)%N then escape "n"
  else if (n =? 13)%N then escape "r"
  else if (n =? 9)%N then escape "t"
  else if ((n <? 32) || ((127 <=? n) && (n <=? 160)) || (n =? 173))%N
       then escape (String "x" (String (hex_digit (n / 16))
                                  (String (hex_digit (n mod 16)) EmptyString)))
  else String c EmptyString.

Fixpoint contains_char (c : ascii) (s : string) : bool :=
  match s with
  | EmptyString => false
  | String c' s' => Ascii.eqb c c' || contains_char c s'
  end.

Fixpoint concat_map_char (f : ascii -> string) (s : string) : string :=
  match s with
  | EmptyString => EmptyString
  | String c s' => f c ++ concat_map_char f s'
  end.

Definition double_quote : ascii := ascii_of_N 34.

Definition repr_str (s : string) : string :=
  let quote : ascii :=
    if contains_char "'" s && negb (contains_char double_quote s)
    then double_quote else "'"%char in
  String quote (concat_map_char (repr_char quote) s ++ String quote EmptyString).

Fixpoint join (sep : string) (l : list string) : string :=
  match l with
  | [] => EmptyString
  | [x] => x
  | x :: l' => x ++ sep ++ join sep l'
  end.

Fixpoint repr (v : value) : string :=
  match v with
  | VNone => "None"
  | VBool true => "True"
  | VBool false => "False"
  | VInt n => str_int n
  | VStr s => repr_str s
  | VList l => "[" ++ join ", " (map repr l) ++ "]"
  | VDict d =>
      "{" ++ join ", " (map (fun kv => repr_str (fst kv) ++ ": " ++ repr (snd kv)) d) ++ "}"
  end.

Definition str (v : value) : string :=
  match v with
  | VStr s => s
  | _ => repr v
  end.

(** ** Exceptions

    Every [raise] site of the module has a constructor of its own, so
    that two [TypeError]s raised for different reasons stay apart;
    [exn_class] gives the Python class. *)

Inductive exn : Type :=
| MissingRecord          (* ValueError: Compliance object cannot be None! *)
| UnrecognizedAction     (* TypeError: Unknown action encountered!!, base class *)
| WrongActionClass       (* TypeError: ComplianceBase does not contain a ... action! *)
| UnrecognizedSubAction  (* TypeError: Unknown action encountered!!, action classes *)
| InvalidClassName       (* TypeError: `action_class` must be one of ... *)
| WrongArgumentType      (* TypeError: `..._action` type must be one of ... *)
| AttributeError (name : string)
| IndexError
| BuiltinError (cls : string). (* raised inside a built-in or the datetime module *)


Inductive result (A : Type) : Type :=
| Ok (a : A)
| Raise (e : exn).
Arguments Ok {A} a.
Arguments Raise {A} e.

#[global] Instance result_ret : MRet result := fun A a => Ok a.
#[global] Instance result_bind : MBind result := fun A B f m =>
  match m with
  | Ok a => f a
  | Raise e => Raise e
  end.
#[global] Instance result_fmap : FMap result := fun A B f m =>
  match m with
  | Ok a => Ok (f a)
  | Raise e => Raise e
  end.

Definition succeeds {A} (r : result A) : Prop := exists a, r = Ok a.

(** ** The registry of action names (lines 15-55) *)

Definition USER_ACTIONS : gset string :=
  list_to_set
    [ "user_delete"; "user_protect"; "user_suspend"; "user_undelete";
      "user_unprotect"; "user_unsuspend"; "user_withheld" ].
Definition TWEET_ACTIONS : gset string :=
  list_to_set [ "delete"; "tweet_edit"; "status_withheld" ].
Definition DROP_ACTIONS : gset string := list_to_set [ "drop"; "undrop" ].
Definition GEO_ACTIONS : gset string := list_to_set [ "scrub_geo" ].
Definition LIKE_ACTIONS : gset string := list_to_set [ "delete" ].

(** [x in S] *)
Definition mem (x : string) (S : gset string) : bool := bool_decide (x ∈ S).

(** The [if]/[elif] chain has no [else]: a name that matched none of the
    branches would fall off the end of the function, which returns
    [None] in Python. *)
Definition return_possible_actions (action_class : string)
  : result (option (gset string)) :=
  let options := [ "user"; "tweet"; "drop"; "scrub_geo"; "like" ] in
  if negb (bool_decide (action_class ∈ options)) then Raise InvalidClassName
  else if String.eqb action_class "user" then Ok (Some USER_ACTIONS)
  else if String.eqb action_class "tweet" then Ok (Some TWEET_ACTIONS)
  else if String.eqb action_class "drop" then Ok (Some DROP_ACTIONS)
  else if String.eqb action_class "scrub_geo" then Ok (Some GEO_ACTIONS)
  else if String.eqb action_class "like" then Ok (Some LIKE_ACTIONS)
  else Ok None.

(** The five registry sets, in the order of the class flags. *)
Definition registry : list (gset string) :=
  [ USER_ACTIONS; TWEET_ACTIONS; DROP_ACTIONS; GEO_ACTIONS; LIKE_ACTIONS ].

(** [sum] of a list of booleans *)
Definition sum_flags (flags : list bool) : nat :=
  foldr (fun (b : bool) n => (if b then 1 else 0) + n) 0 flags.

(** ** Field lookup *)

(** Modelled from the spec: [get_dict_val] of the package's [utils]
    module, which is not among the sources.  The spec has it descend the
    record through each key in order and return null the moment a key is
    absent or the current value is not a mapping. *)
Fixpoint get_dict_val (dictionary : value) (key_list : list string) : value :=
  match key_list with
  | [] => dictionary
  | k :: rest =>
      match dictionary with
      | VDict d =>
          match dict_get d k with
          | Some v => get_dict_val v rest
          | None => VNone
          end
      | _ => VNone
      end
  end.

(** ** The base class: construction and lookup (lines 60-116)

    The attributes of each class are a record in a module of the class's
    name; methods are named [Class_method]. *)

Module ComplianceBase.
Record t : Type := Build {
  comp_object : value;
  action : string;
  is_user_action : bool;
  is_tweet_action : bool;
  is_drop_action : bool;
  is_geo_action : bool;
  is_like_action : bool
}.
End ComplianceBase.

(** [comp_object.keys()]: among the values only a dictionary has the
    method. *)
Definition keys (v : value) : result (list string) :=
  match v with
  | VDict d => Ok (d.*1)
  | _ => Raise (AttributeError "keys")
  end.

(** [l[0]] *)
Definition item0 {A} (l : list A) : result A :=
  match l with
  | [] => Raise IndexError
  | x :: _ => Ok x
  end.

Definition class_flags (self : ComplianceBase.t) : list bool :=
  [ ComplianceBase.is_user_action self; ComplianceBase.is_tweet_action self;
    ComplianceBase.is_drop_action self; ComplianceBase.is_geo_action self;
    ComplianceBase.is_like_action self ].

(** [ComplianceBase.__init__] *)
Definition ComplianceBase_init (comp_object : value) : result ComplianceBase.t :=
  if is_None comp_object then Raise MissingRecord
  else
    ks ← keys comp_object;
    action ← item0 ks;
    let self :=
      {| ComplianceBase.comp_object := comp_object;
         ComplianceBase.action := action;
         ComplianceBase.is_user_action := mem action USER_ACTIONS;
         ComplianceBase.is_tweet_action := mem action TWEET_ACTIONS;
         ComplianceBase.is_drop_action := mem action DROP_ACTIONS;
         ComplianceBase.is_geo_action := mem action GEO_ACTIONS;
         ComplianceBase.is_like_action := mem action LIKE_ACTIONS |} in
    let all_action_flags := class_flags self in
    if negb (Nat.eqb (sum_flags all_action_flags) 1) then Raise UnrecognizedAction
    else Ok self.

(** [ComplianceBase.get_value] *)
Definition get_value (self : ComplianceBase.t) (key_list : list string) : value :=
  get_dict_val (ComplianceBase.comp_object self) key_list.

(** ** Objects and constructor arguments

    An object that passes [isinstance(x, ComplianceBase)] is an instance
    of the base class or of one of the five classes derived from it.
    The records of the derived classes hold the attributes of the base
    class and the flags their own constructor adds. *)

Module TweetAction.
Record t : Type := Build {
  base : ComplianceBase.t;
  is_delete : bool;
  is_tweet_edit : bool;
  is_tweet_witheld : bool
}.
End TweetAction.

Module UserAction.
Record t : Type := Build {
  base : ComplianceBase.t;
  is_user_delete : bool;
  is_user_protect : bool;
  is_user_suspend : bool;
  is_user_undelete : bool;
  is_user_unprotect : bool;
  is_user_unsuspend : bool;
  is_user_withheld : bool
}.
End UserAction.

Module DropAction.
Record t : Type := Build {
  base : ComplianceBase.t;
  is_drop : bool;
  is_undrop : bool
}.
End DropAction.

Module ScrubGeoAction.
Record t : Type := Build { base : ComplianceBase.t }.
End ScrubGeoAction.

Module DeleteLikeAction.
Record t : Type := Build { base : ComplianceBase.t }.
End DeleteLikeAction.

Inductive instance : Type :=
| IBase (o : ComplianceBase.t)
| ITweet (o : TweetAction.t)
| IUser (o : UserAction.t)
| IDrop (o : DropAction.t)
| IGeo (o : ScrubGeoAction.t)
| ILike (o : DeleteLikeAction.t).

Definition base_of (o : instance) : ComplianceBase.t :=
  match o with
  | IBase b => b
  | ITweet t => TweetAction.base t
  | IUser u => UserAction.base u
  | IDrop d => DropAction.base d
  | IGeo g => ScrubGeoAction.base g
  | ILike l => DeleteLikeAction.base l
  end.

(** What a caller may hand to the constructor of an action class: an
    instance of [ComplianceBase], or any other value; [dict] is the
    [VDict] case of the latter. *)
Inductive pyarg : Type :=
| ArgInstance (o : instance)
| ArgValue (v : value).

(** The [if isinstance(..)/elif isinstance(..)/else] chain that opens
    the constructor of each of the five action classes (lines 199-204,
    299-304, 373-378, 430-435, 472-477).  It yields the attributes bound
    on [self] by [super().__init__], or [None] when that call was not
    made: the [else] branch builds a [TypeError] and drops it, there is
    no [raise]. *)
Definition super_init (arg : pyarg) : result (option ComplianceBase.t) :=
  match arg with
  | ArgInstance o =>
      Some <$> ComplianceBase_init (ComplianceBase.comp_object (base_of o))
  | ArgValue v =>
      if is_dict v then Some <$> ComplianceBase_init v
      else let _ := WrongArgumentType in Ok None
  end.

(** The first statement after the chain reads a class flag of the base
    class on [self]; on an object whose [super().__init__] never ran the
    attribute does not exist. *)
Definition read_flag (self : option ComplianceBase.t) (name : string)
  : result ComplianceBase.t :=
  match self with
  | Some base => Ok base
  | None => Raise (AttributeError name)
  end.

(** ** [TweetAction] (lines 184-281) *)

Definition TweetAction_init (tweet_action : pyarg) : result TweetAction.t :=
  self ← super_init tweet_action;
  base ← read_flag self "is_tweet_action";
  if negb (ComplianceBase.is_tweet_action base) then Raise WrongActionClass
  else
    let action := ComplianceBase.action base in
    let is_delete := String.eqb action "delete" in
    let is_tweet_edit := String.eqb action "tweet_edit" in
    let is_tweet_witheld := String.eqb action "status_withheld" in
    let all_action_flags := [ is_delete; is_tweet_edit; is_tweet_witheld ] in
    if negb (Nat.eqb (sum_flags all_action_flags) 1) then Raise UnrecognizedSubAction
    else Ok (TweetAction.Build base is_delete is_tweet_edit is_tweet_witheld).

Definition TweetAction_get_tweet_id (self : TweetAction.t) : value :=
  let b := TweetAction.base self in
  if TweetAction.is_delete self || TweetAction.is_tweet_witheld self
  then get_value b [ ComplianceBase.action b; "status"; "id_str" ]
  else if TweetAction.is_tweet_edit self
  then get_value b [ ComplianceBase.action b; "tweet_edit"; "id" ]
  else VNone.

Definition TweetAction_get_edit_tweet_ids (self : TweetAction.t)
  : value * value * value :=
  let b := TweetAction.base self in
  if negb (TweetAction.is_tweet_edit self) then (VNone, VNone, VNone)
  else ( get_value b [ ComplianceBase.action b; "id" ],
         get_value b [ ComplianceBase.action b; "initial_tweet_id" ],
         get_value b [ ComplianceBase.action b; "edit_tweet_ids" ] ).

Definition TweetAction_get_user_id (self : TweetAction.t) : value :=
  let b := TweetAction.base self in
  if TweetAction.is_delete self || TweetAction.is_tweet_witheld self
  then get_value b [ ComplianceBase.action b; "status"; "user_id_str" ]
  else VNone.

Definition TweetAction_get_withheld_countries (self : TweetAction.t) : value :=
  let b := TweetAction.base self in
  if TweetAction.is_tweet_witheld self
  then get_value b [ ComplianceBase.action b; "withheld_in_countries" ]
  else VNone.

(** ** [UserAction] (lines 284-355) *)

Definition UserAction_init (user_action : pyarg) : result UserAction.t :=
  self ← super_init user_action;
  base ← read_flag self "is_user_action";
  if negb (ComplianceBase.is_user_action base) then Raise WrongActionClass
  else
    let action := ComplianceBase.action base in
    let is_user_delete := String.eqb action "user_delete" in
    let is_user_protect := String.eqb action "user_protect" in
    let is_user_suspend := String.eqb action "user_suspend" in
    let is_user_undelete := String.eqb action "user_undelete" in
    let is_user_unprotect := String.eqb action "user_unprotect" in
    let is_user_unsuspend := String.eqb action "user_unsuspend" in
    let is_user_withheld := String.eqb action "user_withheld" in
    let all_action_flags :=
      [ is_user_delete; is_user_protect; is_user_suspend; is_user_undelete;
        is_user_unprotect; is_user_unsuspend; is_user_withheld ] in
    if negb (Nat.eqb (sum_flags all_action_flags) 1) then Raise UnrecognizedSubAction
    else Ok (UserAction.Build base is_user_delete is_user_protect is_user_suspend
               is_user_undelete is_user_unprotect is_user_unsuspend is_user_withheld).

Definition UserAction_get_user_id (self : UserAction.t) : value :=
  let b := UserAction.base self in
  if negb (UserAction.is_user_withheld self)
  then VStr (str (get_value b [ ComplianceBase.action b; "id" ]))
  else get_value b [ ComplianceBase.action b; "user"; "id_str" ].

Definition UserAction_get_withheld_countries (self : UserAction.t) : value :=
  let b := UserAction.base self in
  if UserAction.is_user_withheld self
  then get_value b [ ComplianceBase.action b; "withheld_in_countries" ]
  else VNone.

(** ** [DropAction] (lines 358-412) *)

Definition DropAction_init (drop_action : pyarg) : result DropAction.t :=
  self ← super_init drop_action;
  base ← read_flag self "is_drop_action";
  if negb (ComplianceBase.is_drop_action base) then Raise WrongActionClass
  else
    let action := ComplianceBase.action base in
    let is_drop := String.eqb action "drop" in
    let is_undrop := String.eqb action "undrop" in
    let all_action_flags := [ is_drop; is_undrop ] in
    if negb (Nat.eqb (sum_flags all_action_flags) 1) then Raise UnrecognizedSubAction
    else Ok (DropAction.Build base is_drop is_undrop).

Definition DropAction_get_tweet_id (self : DropAction.t) : value :=
  let b := DropAction.base self in
  get_value b [ ComplianceBase.action b; "status"; "id_str" ].

Definition DropAction_get_user_id (self : DropAction.t) : value :=
  let b := DropAction.base self in
  get_value b [ ComplianceBase.action b; "status"; "user_id_str" ].

(** ** [ScrubGeoAction] (lines 415-454) *)

Definition ScrubGeoAction_init (geo_action : pyarg) : result ScrubGeoAction.t :=
  self ← super_init geo_action;
  base ← read_flag self "is_geo_action";
  if negb (ComplianceBase.is_geo_action base) then Raise WrongActionClass
  else
    Ok (ScrubGeoAction.Build base).

Definition ScrubGeoAction_get_user_id (self : ScrubGeoAction.t) : value :=
  let b := ScrubGeoAction.base self in
  get_value b [ ComplianceBase.action b; "user_id_str" ].

Definition ScrubGeoAction_get_up_to_status_id (self : ScrubGeoAction.t) : value :=
  let b := ScrubGeoAction.base self in
  get_value b [ ComplianceBase.action b; "up_to_status_id_str" ].

(** ** [DeleteLikeAction] (lines 457-496) *)

Definition DeleteLikeAction_init (like_action : pyarg) : result DeleteLikeAction.t :=
  self ← super_init like_action;
  base ← read_flag self "is_like_action";
  if negb (ComplianceBase.is_like_action base) then Raise WrongActionClass
  else
    Ok (DeleteLikeAction.Build base).

Definition DeleteLikeAction_get_tweet_id (self : DeleteLikeAction.t) : value :=
  let b := DeleteLikeAction.base self in
  get_value b [ ComplianceBase.action b; "favorite"; "tweet_id_str" ].

Definition DeleteLikeAction_get_user_id (self : DeleteLikeAction.t) : value :=
  let b := DeleteLikeAction.base self in
  get_value b [ ComplianceBase.action b; "favorite"; "user_id_str" ].

(** ** Uniform view of the five constructors *)

Inductive action_class : Type := User | Tweet | Drop | Scrub_geo | Like.

Definition actions_of (c : action_class) : gset string :=
  match c with
  | User => USER_ACTIONS
  | Tweet => TWEET_ACTIONS
  | Drop => DROP_ACTIONS
  | Scrub_geo => GEO_ACTIONS
  | Like => LIKE_ACTIONS
  end.

(** [construct c arg] calls the constructor of the action class for [c]. *)
Definition construct (c : action_class) (arg : pyarg) : result instance :=
  match c with
  | User => IUser <$> UserAction_init arg
  | Tweet => ITweet <$> TweetAction_init arg
  | Drop => IDrop <$> DropAction_init arg
  | Scrub_geo => IGeo <$> ScrubGeoAction_init arg
  | Like => ILike <$> DeleteLikeAction_init arg
  end.

(** The flags a constructor adds to the ones of the base class, in the
    order of its [all_action_flags]; [ScrubGeoAction] and
    [DeleteLikeAction] add none. *)
Definition sub_action_flags (o : instance) : list bool :=
  match o with
  | IBase _ => []
  | ITweet t =>
      [ TweetAction.is_delete t; TweetAction.is_tweet_edit t;
        TweetAction.is_tweet_witheld t ]
  | IUser u =>
      [ UserAction.is_user_delete u; UserAction.is_user_protect u;
        UserAction.is_user_suspend u; UserAction.is_user_undelete u;
        UserAction.is_user_unprotect u; UserAction.is_user_unsuspend u;
        UserAction.is_user_withheld u ]
  | IDrop d => [ DropAction.is_drop d; DropAction.is_undrop d ]
  | IGeo _ => []
  | ILike _ => []
  end.

(** ** Time stamps (lines 118-159)

    [get_timestamp] is the one method that leaves the module: it calls
    [datetime.fromisoformat], [datetime.replace], [datetime.timestamp],
    [datetime.fromtimestamp], [int] and float arithmetic.  What these do
    depends on the interpreter and, for the conversions between naive
    date/time values and epoch seconds, on the time zone of the host.
    They are the fields of a [runtime]; [get_timestamp] is written once,
    over any runtime, and nothing is assumed of what the runtime
    computes. *)

Record runtime : Type := {
  datetime : Type;
  pyfloat : Type;
  (** [datetime.datetime.fromisoformat(x)] *)
  fromisoformat : value -> result datetime;
  (** [d.replace(tzinfo=None)] *)
  replace_tzinfo_None : datetime -> datetime;
  (** [d.timestamp()] *)
  timestamp : datetime -> result pyfloat;
  (** [f * 1000] *)
  times_1000 : pyfloat -> pyfloat;
  (** [int(f)] on a float *)
  int_of_float : pyfloat -> result Z;
  (** [int(x)] on a value of the record *)
  int_of_value : value -> result Z;
  (** [n / 1000] on an integer *)
  div_1000 : Z -> result pyfloat;
  (** [datetime.datetime.fromtimestamp(f)] *)
  fromtimestamp : pyfloat -> result datetime
}.

(** What [get_timestamp] returns: a value of the record (the string it
    found, or built), or a [datetime] of the runtime, [D]. *)
Inductive time (D : Type) : Type :=
| TimeValue (v : value)
| TimeDatetime (d : D).
Arguments TimeValue {D} v.
Arguments TimeDatetime {D} d.

(** [self.is_user_withheld]: the attribute is set by
    [UserAction.__init__] only. *)
Definition get_is_user_withheld (self : instance) : result bool :=
  match self with
  | IUser u => Ok (UserAction.is_user_withheld u)
  | _ => Raise (AttributeError "is_user_withheld")
  end.

Section Timestamp.

Context (R : runtime).

(** The first half of [get_timestamp] leaves either [dt_obj] (and
    [is_dt_obj = True]) or [timestamp_ms]. *)
Definition read_time (self : instance) : result (datetime R + value) :=
  let b := base_of self in
  if ComplianceBase.is_user_action b then
    is_user_withheld ← get_is_user_withheld self;
    if is_user_withheld : bool then
      let iso_fmt_time := get_value b [ ComplianceBase.action b; "timestampMs" ] in
      d ← fromisoformat R iso_fmt_time;
      Ok (inl (replace_tzinfo_None R d))
    else Ok (inr (get_value b [ ComplianceBase.action b; "timestamp_ms" ]))
  else Ok (inr (get_value b [ ComplianceBase.action b; "timestamp_ms" ])).

(** [ComplianceBase.get_timestamp], inherited by the action classes *)
Definition get_timestamp (self : instance) (as_datetime : bool)
  : result (time (datetime R)) :=
  t ← read_time self;
  match t with
  | inl dt_obj =>
      if as_datetime then Ok (TimeDatetime dt_obj)
      else
        f ← timestamp R dt_obj;
        n ← int_of_float R (times_1000 R f);
        Ok (TimeValue (VStr (str_int n)))
  | inr timestamp_ms =>
      if as_datetime then
        n ← int_of_value R timestamp_ms;
        f ← div_1000 R n;
        d ← fromtimestamp R f;
        Ok (TimeDatetime d)
      else Ok (TimeValue timestamp_ms)
  end.

End Timestamp.

(** ** A runtime that offers nothing

    It has no [datetime] and no float, and every call into it raises.
    What is proved of [get_timestamp] is proved for every runtime; this
    one serves to run the method on concrete records along the paths
    that make no call into the runtime. *)

Definition no_runtime : runtime :=
  {| datetime := Empty_set;
     pyfloat := Empty_set;
     fromisoformat := fun _ => Raise (BuiltinError "NotImplementedError");
     replace_tzinfo_None := fun d => d;
     timestamp := fun d => match d with end;
     times_1000 := fun f => f;
     int_of_float := fun f => match f with end;
     int_of_value := fun _ => Raise (BuiltinError "NotImplementedError");
     div_1000 := fun _ => Raise (BuiltinError "NotImplementedError");
     fromtimestamp := fun f => match f with end |}.

(** ** Auxiliary definitions and sample records *)

(** The recognised action names: the union of the five sets. *)
Definition recognized : gset string := ⋃ registry.

(** The class flag each constructor reads first. *)
Definition class_flag_name (c : action_class) : string :=
  match c with
  | User => "is_user_action"
  | Tweet => "is_tweet_action"
  | Drop => "is_drop_action"
  | Scrub_geo => "is_geo_action"
  | Like => "is_like_action"
  end.

(** Whether every key of a path is found while descending. *)
Fixpoint path_present (v : value) (key_list : list string) : bool :=
  match key_list with
  | [] => true
  | k :: rest =>
      match v with
      | VDict d =>
          match dict_get d k with
          | Some v' => path_present v' rest
          | None => false
          end
      | _ => false
      end
  end.

Definition delete_status_record : value :=
  VDict [ ("delete",
           VDict [ ("status", VDict [ ("id_str", VStr "42"); ("user_id_str", VStr "7") ]);
                   ("timestamp_ms", VStr "1610000000123") ]) ].

Definition tweet_edit_record : value :=
  VDict [ ("tweet_edit",
           VDict [ ("id", VStr "999");
                   ("initial_tweet_id", VStr "111");
                   ("edit_tweet_ids", VList [ VStr "111"; VStr "555"; VStr "999" ]);
                   ("timestamp_ms", VStr "1610000000123") ]) ].

Definition user_delete_record : value :=
  VDict [ ("user_delete",
           VDict [ ("id", VInt 12); ("timestamp_ms", VStr "1610000000123") ]) ].

(** a user message without its [id] field *)
Definition user_delete_without_id : value :=
  VDict [ ("user_delete", VDict [ ("timestamp_ms", VStr "1610000000123") ]) ].

Definition user_withheld_record : value :=
  VDict [ ("user_withheld",
           VDict [ ("user", VDict [ ("id_str", VStr "7") ]);
                   ("withheld_in_countries", VList [ VStr "DE" ]);
                   ("timestampMs", VStr "2021-01-07T12:00:00.123") ]) ].

Definition drop_record : value :=
  VDict [ ("drop",
           VDict [ ("status", VDict [ ("id_str", VStr "42"); ("user_id_str", VStr "7") ]);
                   ("timestamp_ms", VStr "1610000000123") ]) ].

Definition scrub_geo_record : value :=
  VDict [ ("scrub_geo",
           VDict [ ("user_id_str", VStr "7"); ("up_to_status_id_str", VStr "42");
                   ("timestamp_ms", VStr "1610000000123") ]) ].

(** The name under which [return_possible_actions] knows a class. *)
Definition option_name (c : action_class) : string :=
  match c with
  | User => "user"
  | Tweet => "tweet"
  | Drop => "drop"
  | Scrub_geo => "scrub_geo"
  | Like => "like"
  end.

(** The action names the constructor of a class compares [self.action]
    with, in the order of its [all_action_flags]. *)
Definition sub_action_names (c : action_class) : list string :=
  match c with
  | User =>
      [ "user_delete"; "user_protect"; "user_suspend"; "user_undelete";
        "user_unprotect"; "user_unsuspend"; "user_withheld" ]
  | Tweet => [ "delete"; "tweet_edit"; "status_withheld" ]
  | Drop => [ "drop"; "undrop" ]
  | Scrub_geo => []
  | Like => []
  end.

(** * Properties *)

(** ** Small facts about the definitions *)

Lemma elem_of_USER_ACTIONS a :
  a ∈ USER_ACTIONS <->
  a = "user_delete" \/ a = "user_protect" \/ a = "user_suspend" \/
  a = "user_undelete" \/ a = "user_unprotect" \/ a = "user_unsuspend" \/
  a = "user_withheld".
Proof. unfold USER_ACTIONS. rewrite elem_of_list_to_set, !elem_of_cons, elem_of_nil. tauto. Qed.

Lemma elem_of_TWEET_ACTIONS a :
  a ∈ TWEET_ACTIONS <-> a = "delete" \/ a = "tweet_edit" \/ a = "status_withheld".
Proof. unfold TWEET_ACTIONS. rewrite elem_of_list_to_set, !elem_of_cons, elem_of_nil. tauto. Qed.

Lemma elem_of_DROP_ACTIONS a : a ∈ DROP_ACTIONS <-> a = "drop" \/ a = "undrop".
Proof. unfold DROP_ACTIONS. rewrite elem_of_list_to_set, !elem_of_cons, elem_of_nil. tauto. Qed.

Lemma elem_of_GEO_ACTIONS a : a ∈ GEO_ACTIONS <-> a = "scrub_geo".
Proof. unfold GEO_ACTIONS. rewrite elem_of_list_to_set, !elem_of_cons, elem_of_nil. tauto. Qed.

Lemma elem_of_LIKE_ACTIONS a : a ∈ LIKE_ACTIONS <-> a = "delete".
Proof. unfold LIKE_ACTIONS. rewrite elem_of_list_to_set, !elem_of_cons, elem_of_nil. tauto. Qed.

Lemma mem_true a S : mem a S = true <-> a ∈ S.
Proof. unfold mem. apply bool_decide_eq_true. Qed.

Lemma mem_false a S : mem a S = false <-> a ∉ S.
Proof. unfold mem. apply bool_decide_eq_false. Qed.

Lemma elem_of_recognized a :
  a ∈ recognized <->
  a ∈ USER_ACTIONS \/ a ∈ TWEET_ACTIONS \/ a ∈ DROP_ACTIONS \/ a ∈ GEO_ACTIONS \/
  a ∈ LIKE_ACTIONS.
Proof.
  unfold recognized, registry. rewrite elem_of_union_list. split.
  - intros (S & HS & Ha). rewrite !elem_of_cons, elem_of_nil in HS.
    destruct HS as [-> | [-> | [-> | [-> | [-> | []]]]]]; tauto.
  - intros [H | [H | [H | [H | H]]]]; eexists; (split; [| exact H]);
      rewrite !elem_of_cons; tauto.
Qed.

(** What a successful [ComplianceBase.__init__] tells. *)
Lemma ComplianceBase_init_Ok v b :
  ComplianceBase_init v = Ok b ->
  exists k x d,
    v = VDict ((k, x) :: d) /\
    b = ComplianceBase.Build v k (mem k USER_ACTIONS) (mem k TWEET_ACTIONS)
          (mem k DROP_ACTIONS) (mem k GEO_ACTIONS) (mem k LIKE_ACTIONS) /\
    sum_flags (class_flags b) = 1.
Proof.
  unfold ComplianceBase_init. destruct v as [| | | | |d]; simpl; try discriminate.
  destruct d as [|[k x] d]; simpl; [discriminate|].
  destruct (Nat.eqb _ 1) eqn:E; simpl; [|discriminate].
  intros [= <-]. exists k, x, d. repeat split. now apply Nat.eqb_eq in E.
Qed.

(** At most one of the five flags can be set beside [delete]: on a
    dictionary, the base constructor succeeds exactly for the first keys
    that lie in one registry set only. *)
Lemma ComplianceBase_init_dict k x d :
  ComplianceBase_init (VDict ((k, x) :: d)) =
  if Nat.eqb (sum_flags ((mem k) <$> registry)) 1
  then Ok (ComplianceBase.Build (VDict ((k, x) :: d)) k (mem k USER_ACTIONS)
             (mem k TWEET_ACTIONS) (mem k DROP_ACTIONS) (mem k GEO_ACTIONS)
             (mem k LIKE_ACTIONS))
  else Raise UnrecognizedAction.
Proof.
  unfold ComplianceBase_init. simpl.
  destruct (Nat.eqb _ 1); reflexivity.
Qed.

(** A successful constructor of an action class went through
    [super().__init__] on a dictionary. *)
Lemma super_init_Ok_Some arg b :
  super_init arg = Ok (Some b) ->
  exists v, ComplianceBase_init v = Ok b /\
    match arg with
    | ArgInstance o => v = ComplianceBase.comp_object (base_of o)
    | ArgValue v' => v = v'
    end.
Proof.
  destruct arg as [o | v]; simpl.
  - destruct (ComplianceBase_init _) eqn:E; simpl; intros [= <-]. eauto.
  - destruct (is_dict v); [|discriminate].
    destruct (ComplianceBase_init _) eqn:E; simpl; intros [= <-]. eauto.
Qed.

Ltac inv_bind H :=
  match type of H with
  | context [super_init ?a] =>
      let E := fresh "Esuper" in
      destruct (super_init a) as [[?b|]|?e] eqn:E; simpl in H; try discriminate H
  end.

(** What a successful constructor of an action class tells: the base
    constructor ran on its argument, the class flag is set, and the
    result holds exactly the attributes bound by the base constructor. *)
Lemma construct_Ok c arg o :
  construct c arg = Ok o ->
  super_init arg = Ok (Some (base_of o)) /\
  mem (ComplianceBase.action (base_of o)) (actions_of c) = true.
Proof.
  destruct c; simpl;
    [ unfold UserAction_init | unfold TweetAction_init | unfold DropAction_init
    | unfold ScrubGeoAction_init | unfold DeleteLikeAction_init ];
    intros H; inv_bind H.
  all: match type of H with
       | context [negb ?f] => destruct f eqn:Ef; simpl in H; try discriminate H
       end.
  all: try match type of H with
       | context [Nat.eqb ?n 1] => destruct (Nat.eqb n 1); simpl in H; try discriminate H
       end.
  all: injection H as <-; simpl; split; [reflexivity|].
  all: pose proof (super_init_Ok_Some _ _ Esuper) as (v & Hv & _);
       apply ComplianceBase_init_Ok in Hv as (k & x & d & _ & -> & _);
       simpl in *; exact Ef.
Qed.

(** ** The registry *)

(** All pairs of registry sets other than the tweet and like sets are
    disjoint. *)
Lemma registry_disjoint_pairs :
  USER_ACTIONS ## TWEET_ACTIONS /\ USER_ACTIONS ## DROP_ACTIONS /\
  USER_ACTIONS ## GEO_ACTIONS /\ USER_ACTIONS ## LIKE_ACTIONS /\
  TWEET_ACTIONS ## DROP_ACTIONS /\ TWEET_ACTIONS ## GEO_ACTIONS /\
  DROP_ACTIONS ## GEO_ACTIONS /\ DROP_ACTIONS ## LIKE_ACTIONS /\
  GEO_ACTIONS ## LIKE_ACTIONS.
Proof.
  repeat split; intros a;
    rewrite ?elem_of_USER_ACTIONS, ?elem_of_TWEET_ACTIONS, ?elem_of_DROP_ACTIONS,
      ?elem_of_GEO_ACTIONS, ?elem_of_LIKE_ACTIONS;
    intros H1 H2; repeat (destruct H1 as [H1 | H1]);
    subst a; repeat (destruct H2 as [H2 | H2]); discriminate H2.
Qed.

(** C1. The registry sets are not pairwise disjoint: [delete] is
    registered both as a tweet action (line 26) and as the like action
    (line 29), and it is the only name two sets share. *)
Theorem delete_in_tweet_and_like_actions :
  "delete" ∈ TWEET_ACTIONS /\ "delete" ∈ LIKE_ACTIONS /\
  ~ TWEET_ACTIONS ## LIKE_ACTIONS /\
  (forall a, a ∈ TWEET_ACTIONS -> a ∈ LIKE_ACTIONS -> a = "delete").
Proof.
  assert (Ht : "delete" ∈ TWEET_ACTIONS) by (apply elem_of_TWEET_ACTIONS; tauto).
  assert (Hl : "delete" ∈ LIKE_ACTIONS) by (apply elem_of_LIKE_ACTIONS; tauto).
  repeat split; trivial.
  - intros H. exact (H "delete" Ht Hl).
  - intros a _ Ha. now apply elem_of_LIKE_ACTIONS in Ha.
Qed.

(** ** Construction *)

(** C2. A [delete] record, the sole key of which is a recognised action
    name, is rejected by the base constructor as an unknown action: two
    class flags are set.  No action class can be built from it, neither
    the matching ones ([TweetAction], [DeleteLikeAction]) nor, with the
    error of a wrong class, the others. *)
Theorem delete_record_unclassifiable :
  "delete" ∈ recognized /\
  ComplianceBase_init delete_status_record = Raise UnrecognizedAction /\
  forall c, construct c (ArgValue delete_status_record) = Raise UnrecognizedAction.
Proof.
  split; [|split].
  - apply elem_of_recognized. right; left. apply elem_of_TWEET_ACTIONS. tauto.
  - reflexivity.
  - intros []; reflexivity.
Qed.

Ltac decide_mem :=
  match goal with
  | |- ?a ∈ ?S -> _ =>
      let H := fresh in
      intros H; apply mem_true in H; vm_compute in H; discriminate H
  | |- ?a ∉ ?S -> _ =>
      let H := fresh in
      intros H; apply mem_false in H; vm_compute in H; discriminate H
  end.

(** For every other recognised action name the constructors behave as
    the specification has it: the action class of the name accepts the
    record, the other four reject it with the error of a wrong class. *)
Lemma construct_other_actions a body c :
  a ∈ recognized -> a <> "delete" ->
  let r := VDict [ (a, body) ] in
  succeeds (ComplianceBase_init r) /\
  (a ∈ actions_of c -> succeeds (construct c (ArgValue r))) /\
  (a ∉ actions_of c -> construct c (ArgValue r) = Raise WrongActionClass).
Proof.
  intros Ha Hd r. subst r.
  apply elem_of_recognized in Ha.
  rewrite elem_of_USER_ACTIONS, elem_of_TWEET_ACTIONS, elem_of_DROP_ACTIONS,
    elem_of_GEO_ACTIONS, elem_of_LIKE_ACTIONS in Ha.
  repeat (destruct Ha as [Ha | Ha]); subst a; try congruence.
  all: split; [eexists; reflexivity|].
  all: destruct c; split;
    first [ decide_mem | intros _; eexists; reflexivity | intros _; reflexivity ].
Qed.

(** C9. On an empty dictionary the base constructor passes the test for
    [None] and fails at [list(...)[0]] with an [IndexError], which is
    neither of the two errors the constructor raises itself; a dictionary
    with a first key never fails there. *)
Theorem empty_record_index_error :
  ComplianceBase_init (VDict []) = Raise IndexError /\
  ComplianceBase_init (VDict []) <> Raise MissingRecord /\
  ComplianceBase_init (VDict []) <> Raise UnrecognizedAction /\
  forall k x d, ComplianceBase_init (VDict ((k, x) :: d)) <> Raise IndexError.
Proof.
  repeat split; try discriminate.
  intros k x d. rewrite ComplianceBase_init_dict.
  destruct (Nat.eqb _ 1); discriminate.
Qed.

Lemma empty_record_index_error_witness :
  ComplianceBase_init (VDict []) = Raise IndexError /\
  ComplianceBase_init drop_record <> Raise IndexError.
Proof.
  split.
  - exact (proj1 empty_record_index_error).
  - exact (proj2 (proj2 (proj2 empty_record_index_error)) _ _ _).
Defined.

(** C10. An argument that is neither a dictionary nor an instance of
    [ComplianceBase] reaches the [else] branch, where the [TypeError] is
    built and dropped: the chain ends without an exception and without a
    call of the base constructor, so [self] has no attribute, and the
    constructor fails at its next statement with an [AttributeError]
    for the class flag, never with the error about the argument's
    type. *)
Theorem wrong_argument_type_not_raised (c : action_class) (v : value) :
  is_dict v = false ->
  super_init (ArgValue v) = Ok None /\
  construct c (ArgValue v) = Raise (AttributeError (class_flag_name c)) /\
  construct c (ArgValue v) <> Raise WrongArgumentType.
Proof.
  intros Hv.
  assert (Hs : super_init (ArgValue v) = Ok None) by (simpl; now rewrite Hv).
  assert (Hc : construct c (ArgValue v) = Raise (AttributeError (class_flag_name c))).
  { destruct c; simpl;
      [ unfold UserAction_init | unfold TweetAction_init | unfold DropAction_init
      | unfold ScrubGeoAction_init | unfold DeleteLikeAction_init ];
      rewrite Hs; reflexivity. }
  repeat split; trivial. rewrite Hc. discriminate.
Qed.

Lemma wrong_argument_type_not_raised_witness :
  construct Tweet (ArgValue (VStr "delete")) = Raise (AttributeError "is_tweet_action")
  /\ construct User (ArgValue VNone) = Raise (AttributeError "is_user_action").
Proof.
  split.
  - exact (proj1 (proj2 (wrong_argument_type_not_raised Tweet (VStr "delete") eq_refl))).
  - exact (proj1 (proj2 (wrong_argument_type_not_raised User VNone eq_refl))).
Defined.

(** ** Inversion of the constructors with sub-action flags *)

Ltac inv_init H :=
  inv_bind H;
  match type of H with
  | context [negb ?f] => destruct f eqn:?Eflag; simpl in H; try discriminate H
  end;
  match type of H with
  | context [Nat.eqb ?n 1] =>
      let E := fresh "Esum" in
      destruct (Nat.eqb n 1) eqn:E; simpl in H; try discriminate H;
      apply Nat.eqb_eq in E
  end;
  injection H as <-; simpl.


Lemma UserAction_init_Ok arg u :
  UserAction_init arg = Ok u ->
  super_init arg = Ok (Some (UserAction.base u)) /\
  ComplianceBase.is_user_action (UserAction.base u) = true /\
  UserAction.is_user_withheld u
    = String.eqb (ComplianceBase.action (UserAction.base u)) "user_withheld" /\
  sum_flags (sub_action_flags (IUser u)) = 1.
Proof. unfold UserAction_init. intros H. inv_init H. auto. Qed.


(** A constructor of an action class looks at its argument through the
    opening chain only. *)
Lemma construct_super_init c arg arg' :
  super_init arg = super_init arg' -> construct c arg = construct c arg'.
Proof.
  intros E. destruct c; simpl;
    [ unfold UserAction_init | unfold TweetAction_init | unfold DropAction_init
    | unfold ScrubGeoAction_init | unfold DeleteLikeAction_init ];
    now rewrite E.
Qed.

(** ** Accessors *)

Lemma get_dict_val_absent v key_list :
  path_present v key_list = false -> get_dict_val v key_list = VNone.
Proof.
  revert v. induction key_list as [|k rest IH]; intros v; simpl; [discriminate|].
  destruct v; trivial. destruct (dict_get d k); auto.
Qed.

(** Field lookup returns null for a path that is not in the record. *)
Lemma get_value_absent self key_list :
  path_present (ComplianceBase.comp_object self) key_list = false ->
  get_value self key_list = VNone.
Proof. apply get_dict_val_absent. Qed.

(** [UserAction.get_user_id] outside the withheld case: the text of
    whatever the lookup gave, [None] included. *)
Lemma UserAction_get_user_id_absent (u : UserAction.t) :
  UserAction.is_user_withheld u = false ->
  path_present (ComplianceBase.comp_object (UserAction.base u))
    [ ComplianceBase.action (UserAction.base u); "id" ] = false ->
  UserAction_get_user_id u = VStr "None".
Proof.
  intros Hw Hp. unfold UserAction_get_user_id. rewrite Hw. simpl negb. cbv iota.
  now rewrite (get_value_absent _ _ Hp).
Qed.

(** C3. On the tweet-edit record the edit chain and the user id are as
    the specification has them, but the tweet id is null: for an edit
    [get_tweet_id] looks under a second [tweet_edit] key (line 238),
    where [get_edit_tweet_ids] reads the current id directly under the
    action (line 259). *)
Theorem tweet_edit_scenario :
  exists t,
    TweetAction_init (ArgValue tweet_edit_record) = Ok t /\
    TweetAction_get_edit_tweet_ids t
      = (VStr "999", VStr "111", VList [ VStr "111"; VStr "555"; VStr "999" ]) /\
    TweetAction_get_user_id t = VNone /\
    TweetAction_get_tweet_id t = VNone /\
    TweetAction_get_tweet_id t <> VStr "999".
Proof.
  eexists. split; [reflexivity|]. repeat split. discriminate.
Qed.

(** C4. A user message without [id]: the lookup gives null, and
    [UserAction.get_user_id] returns the four-letter string [None]
    (line 346 wraps the lookup in [str]), not null. *)
Theorem user_id_of_missing_field :
  exists u,
    UserAction_init (ArgValue user_delete_without_id) = Ok u /\
    path_present user_delete_without_id [ "user_delete"; "id" ] = false /\
    get_value (UserAction.base u) [ "user_delete"; "id" ] = VNone /\
    UserAction_get_user_id u = VStr "None" /\
    UserAction_get_user_id u <> VNone.
Proof.
  eexists. split; [reflexivity|]. repeat split. discriminate.
Qed.

(** ** Re-wrapping *)

(** C7. When an action class can be built from a record, building it
    from the [ComplianceBase] of that record, or from the built instance
    itself, gives the same object: the same class flags, the same
    sub-action flags, hence the same output of every accessor; and the
    objects hold the record they were given, unchanged. *)
Theorem rewrap_idempotent (c : action_class) (d : list (string * value)) (o : instance) :
  construct c (ArgValue (VDict d)) = Ok o ->
  exists b,
    ComplianceBase_init (VDict d) = Ok b /\
    ComplianceBase.comp_object b = VDict d /\
    construct c (ArgInstance (IBase b)) = Ok o /\
    construct c (ArgInstance o) = Ok o /\
    ComplianceBase.comp_object (base_of o) = VDict d.
Proof.
  intros H. pose proof (construct_Ok _ _ _ H) as [Hs _].
  pose proof (super_init_Ok_Some _ _ Hs) as (v & Hv & ->).
  pose proof (ComplianceBase_init_Ok _ _ Hv) as (k & x & d' & _ & Hb & _).
  assert (Hc : ComplianceBase.comp_object (base_of o) = VDict d) by now rewrite Hb.
  exists (base_of o). repeat split; trivial.
  - rewrite <- H. apply construct_super_init. simpl. now rewrite Hc.
  - rewrite <- H. apply construct_super_init. simpl. now rewrite Hc.
Qed.

Lemma rewrap_idempotent_witness :
  exists o b,
    construct Drop (ArgValue drop_record) = Ok o /\
    ComplianceBase_init drop_record = Ok b /\
    construct Drop (ArgInstance (IBase b)) = Ok o /\
    construct Drop (ArgInstance o) = Ok o.
Proof.
  eexists.
  destruct (rewrap_idempotent Drop _ _ (eq_refl : construct Drop (ArgValue drop_record) = Ok _))
    as (b & Hb & _ & H1 & H2 & _).
  exists b. repeat split; assumption.
Defined.

(** ** Flags *)





(** ** Time stamps *)

Section TimestampFacts.

Context (R : runtime).

(** On an instance of the base class itself, a user record makes
    [get_timestamp] read an attribute that only [UserAction] sets. *)
Lemma get_timestamp_base_user (b : ComplianceBase.t) (as_datetime : bool) :
  ComplianceBase.is_user_action b = true ->
  get_timestamp R (IBase b) as_datetime = Raise (AttributeError "is_user_withheld").
Proof.
  intros H. unfold get_timestamp, read_time. simpl. now rewrite H.
Qed.

(** Where the method gets through to the epoch field, the string mode
    returns the field as it is stored. *)
Lemma get_timestamp_stored (o : instance) :
  ComplianceBase.is_user_action (base_of o) = false \/
  (exists u, o = IUser u /\ UserAction.is_user_withheld u = false) ->
  get_timestamp R o false
  = Ok (TimeValue
          (get_value (base_of o) [ ComplianceBase.action (base_of o); "timestamp_ms" ])).
Proof.
  intros [H | (u & -> & H)]; unfold get_timestamp, read_time.
  - now rewrite H.
  - simpl. rewrite H. now destruct (ComplianceBase.is_user_action _).
Qed.

End TimestampFacts.

(** The calls [get_timestamp] makes on a [UserAction] in the withheld
    case, on any runtime: the value at [[action, "timestampMs"]] goes to
    [fromisoformat] and the result to [replace(tzinfo=None)]; the
    structured mode returns that [datetime], the string mode the decimal
    text of [int(dt_obj.timestamp() * 1000)]. *)
Lemma get_timestamp_withheld_calls (R : runtime) (arg : pyarg) (u : UserAction.t) :
  UserAction_init arg = Ok u ->
  UserAction.is_user_withheld u = true ->
  let b := UserAction.base u in
  let iso_fmt_time := get_value b [ "user_withheld"; "timestampMs" ] in
  ComplianceBase.action b = "user_withheld" /\
  get_timestamp R (IUser u) true
  = (d ← fromisoformat R iso_fmt_time; Ok (TimeDatetime (replace_tzinfo_None R d))) /\
  get_timestamp R (IUser u) false
  = (d ← fromisoformat R iso_fmt_time;
     f ← timestamp R (replace_tzinfo_None R d);
     n ← int_of_float R (times_1000 R f);
     Ok (TimeValue (VStr (str_int n)))).
Proof.
  intros Hinit Hw b iso.
  apply UserAction_init_Ok in Hinit as (_ & Hu & Hflag & _).
  rewrite Hw in Hflag. symmetry in Hflag. apply String.eqb_eq in Hflag.
  subst b iso. split; [exact Hflag|].
  unfold get_timestamp, read_time. simpl base_of. rewrite Hu. simpl.
  rewrite Hw, Hflag.
  split; destruct (fromisoformat R _); reflexivity.
Qed.

(** C5. On the [ComplianceBase] of a withheld-user record that stores
    the ISO string of the specification under [timestampMs],
    [get_timestamp] does not get as far as reading it: in both modes and
    on every runtime it raises an [AttributeError], because line 140
    reads [self.is_user_withheld], which only [UserAction.__init__]
    sets (line 320). *)
Theorem base_timestamp_of_user_withheld_record (R : runtime) (as_datetime : bool) :
  exists b,
    ComplianceBase_init user_withheld_record = Ok b /\
    ComplianceBase.action b = "user_withheld" /\
    get_value b [ ComplianceBase.action b; "timestampMs" ]
      = VStr "2021-01-07T12:00:00.123" /\
    get_timestamp R (IBase b) as_datetime = Raise (AttributeError "is_user_withheld").
Proof.
  eexists. split; [reflexivity|]. split; [reflexivity|]. split; [reflexivity|].
  apply get_timestamp_base_user. reflexivity.
Qed.

(** C6. On the [ComplianceBase] of a user record that stores
    [timestamp_ms = "1610000000123"], [get_timestamp] raises an
    [AttributeError] in both modes, on every runtime: line 140 reads
    [self.is_user_withheld], which the base constructor does not set. *)
Theorem base_timestamp_of_user_record (R : runtime) (as_datetime : bool) :
  exists b,
    ComplianceBase_init user_delete_record = Ok b /\
    get_value b [ ComplianceBase.action b; "timestamp_ms" ] = VStr "1610000000123" /\
    get_timestamp R (IBase b) as_datetime = Raise (AttributeError "is_user_withheld").
Proof.
  eexists. split; [reflexivity|]. split; [reflexivity|].
  apply get_timestamp_base_user. reflexivity.
Qed.

(** * Further properties of the module *)

(** ** The registry and the base constructor *)

Lemma elem_of_actions_of c a :
  a ∈ actions_of c <->
  match c with
  | User =>
      a = "user_delete" \/ a = "user_protect" \/ a = "user_suspend" \/
      a = "user_undelete" \/ a = "user_unprotect" \/ a = "user_unsuspend" \/
      a = "user_withheld"
  | Tweet => a = "delete" \/ a = "tweet_edit" \/ a = "status_withheld"
  | Drop => a = "drop" \/ a = "undrop"
  | Scrub_geo => a = "scrub_geo"
  | Like => a = "delete"
  end.
Proof.
  destruct c; simpl.
  - apply elem_of_USER_ACTIONS.
  - apply elem_of_TWEET_ACTIONS.
  - apply elem_of_DROP_ACTIONS.
  - apply elem_of_GEO_ACTIONS.
  - apply elem_of_LIKE_ACTIONS.
Qed.

(** Exactly one class flag is set for the recognised names other than
    [delete], and for no other string. *)
Lemma one_class_flag k :
  sum_flags (mem k <$> registry) = 1 <-> k ∈ recognized /\ k <> "delete".
Proof.
  split.
  - intros H. unfold registry in H. simpl in H.
    destruct (mem k USER_ACTIONS) eqn:Eu, (mem k TWEET_ACTIONS) eqn:Et,
      (mem k DROP_ACTIONS) eqn:Ed, (mem k GEO_ACTIONS) eqn:Eg,
      (mem k LIKE_ACTIONS) eqn:El; simpl in H; try discriminate H.
    all: rewrite ?mem_true, ?mem_false in *.
    all: rewrite elem_of_recognized.
    all: split; [tauto | intros ->].
    all: rewrite elem_of_TWEET_ACTIONS in Et; rewrite elem_of_LIKE_ACTIONS in El.
    all: intuition congruence.
  - intros [Hk Hd]. apply elem_of_recognized in Hk.
    rewrite elem_of_USER_ACTIONS, elem_of_TWEET_ACTIONS, elem_of_DROP_ACTIONS,
      elem_of_GEO_ACTIONS, elem_of_LIKE_ACTIONS in Hk.
    repeat (destruct Hk as [Hk | Hk]); subst k; try congruence; reflexivity.
Qed.

(** X1. [return_possible_actions] answers each of the five class names
    with a set and every other string with the error of line 44; the
    end of the [if]/[elif] chain, where the function would return
    [None], is never reached. *)
Theorem return_possible_actions_total (action_class : string) :
  ((action_class ∈ [ "user"; "tweet"; "drop"; "scrub_geo"; "like" ]) /\
   (exists S, return_possible_actions action_class = Ok (Some S))) \/
  ((action_class ∉ [ "user"; "tweet"; "drop"; "scrub_geo"; "like" ]) /\
   return_possible_actions action_class = Raise InvalidClassName).
Proof.
  unfold return_possible_actions.
  destruct (decide (action_class ∈ [ "user"; "tweet"; "drop"; "scrub_geo"; "like" ]))
    as [Hin | Hout].
  - left. split; [exact Hin|].
    rewrite (bool_decide_eq_true_2 _ Hin). simpl negb. cbv iota.
    rewrite !elem_of_cons, elem_of_nil in Hin.
    destruct Hin as [-> | [-> | [-> | [-> | [-> | []]]]]]; eexists; reflexivity.
  - right. split; [exact Hout|].
    now rewrite (bool_decide_eq_false_2 _ Hout).
Qed.

(** X2. The set [return_possible_actions] gives for a class is the one
    the class flag of the base constructor tests: on a constructed
    [ComplianceBase], the flag of a class is set exactly when the action
    name is in the set returned for that class. *)
Theorem class_flag_matches_registry (v : value) (b : ComplianceBase.t) (c : action_class) :
  ComplianceBase_init v = Ok b ->
  return_possible_actions (option_name c) = Ok (Some (actions_of c)) /\
  (nth (match c with User => 0 | Tweet => 1 | Drop => 2 | Scrub_geo => 3 | Like => 4 end)
       (class_flags b) false = true
   <-> ComplianceBase.action b ∈ actions_of c).
Proof.
  intros H. apply ComplianceBase_init_Ok in H as (k & x & d & _ & -> & _).
  split; [destruct c; reflexivity|].
  destruct c; simpl; apply mem_true.
Qed.

Lemma class_flag_matches_registry_witness :
  exists b,
    ComplianceBase_init drop_record = Ok b /\
    return_possible_actions "drop" = Ok (Some DROP_ACTIONS) /\
    ComplianceBase.action b ∈ DROP_ACTIONS.
Proof.
  eexists. split; [reflexivity|].
  destruct (class_flag_matches_registry drop_record _ Drop eq_refl) as [Hr Hf].
  split; [exact Hr|]. apply Hf. reflexivity.
Defined.



(** ** The constructors of the action classes *)

(** The object a constructor of an action class returns: its base part
    was computed from a dictionary with a first key, that key is in the
    registry set of the class and in no other. *)
Lemma constructed_base c arg o :
  construct c arg = Ok o ->
  exists k x d,
    base_of o
    = ComplianceBase.Build (VDict ((k, x) :: d)) k (mem k USER_ACTIONS)
        (mem k TWEET_ACTIONS) (mem k DROP_ACTIONS) (mem k GEO_ACTIONS)
        (mem k LIKE_ACTIONS) /\
    k ∈ actions_of c /\ k ∈ recognized /\ k <> "delete" /\
    super_init arg = Ok (Some (base_of o)) /\
    ComplianceBase_init (VDict ((k, x) :: d)) = Ok (base_of o).
Proof.
  intros H. pose proof (construct_Ok _ _ _ H) as [Hs Hm].
  pose proof (super_init_Ok_Some _ _ Hs) as (v & Hv & _).
  pose proof (ComplianceBase_init_Ok _ _ Hv) as (k & x & d & -> & Hb & Hsum).
  exists k, x, d. rewrite Hb in Hm, Hsum. simpl in Hm.
  apply mem_true in Hm.
  assert (Hone : sum_flags (mem k <$> registry) = 1) by exact Hsum.
  apply one_class_flag in Hone as [Hr Hd].
  repeat split; trivial.
Qed.

(** A name of a class, other than [delete], is in no other class. *)
Lemma actions_of_unique c c' k :
  k ∈ actions_of c -> k ∈ actions_of c' -> k <> "delete" -> c = c'.
Proof.
  rewrite !elem_of_actions_of.
  destruct c, c'; trivial; intros H1 H2 Hd;
    repeat (destruct H1 as [H1 | H1]); subst k;
    repeat (destruct H2 as [H2 | H2]); congruence.
Qed.

(** X4. No argument whatever makes the constructor of
    [DeleteLikeAction] succeed: the only like action, [delete], is a
    tweet action as well, and the base constructor rejects a record
    with two class flags before line 479 is reached. *)
Theorem DeleteLikeAction_never_constructed (like_action : pyarg) :
  ~ succeeds (DeleteLikeAction_init like_action).
Proof.
  intros [l Hl].
  assert (H : construct Like like_action = Ok (ILike l)) by (simpl; now rewrite Hl).
  apply constructed_base in H as (k & x & d & _ & Hk & _ & Hd & _).
  apply elem_of_LIKE_ACTIONS in Hk. contradiction.
Qed.

(** X5. A constructed [TweetAction] is a tweet edit or a withheld
    status, never a deletion: [is_delete] is false on every instance
    (although [delete] is a tweet action), and exactly one of the other
    two flags is set, the one named by the action. *)
Theorem TweetAction_never_delete (tweet_action : pyarg) (t : TweetAction.t) :
  TweetAction_init tweet_action = Ok t ->
  TweetAction.is_delete t = false /\
  ((ComplianceBase.action (TweetAction.base t) = "tweet_edit" /\
    TweetAction.is_tweet_edit t = true /\ TweetAction.is_tweet_witheld t = false) \/
   (ComplianceBase.action (TweetAction.base t) = "status_withheld" /\
    TweetAction.is_tweet_edit t = false /\ TweetAction.is_tweet_witheld t = true)).
Proof.
  intros Ht.
  assert (H : construct Tweet tweet_action = Ok (ITweet t)) by (simpl; now rewrite Ht).
  apply constructed_base in H as (k & x & d & Hb & Hk & _ & Hd & _).
  simpl in Hb. apply elem_of_TWEET_ACTIONS in Hk.
  unfold TweetAction_init in Ht. inv_bind Ht.
  destruct (ComplianceBase.is_tweet_action b); simpl in Ht; [|discriminate Ht].
  destruct (Nat.eqb _ 1); simpl in Ht; [|discriminate Ht].
  injection Ht as <-. simpl in *. subst b. simpl.
  destruct Hk as [-> | [-> | ->]]; [congruence | |]; split; auto.
Qed.

Lemma TweetAction_never_delete_witness :
  exists t,
    TweetAction_init (ArgValue tweet_edit_record) = Ok t /\
    TweetAction.is_delete t = false /\ TweetAction.is_tweet_edit t = true.
Proof.
  eexists. split; [reflexivity|].
  destruct (TweetAction_never_delete (ArgValue tweet_edit_record) _ eq_refl)
    as [Hd [(_ & He & _) | (Ha & _)]].
  - split; assumption.
  - discriminate Ha.
Defined.

(** What a constructor of an action class does once the base
    constructor has accepted a record with first key [k]. *)
Lemma construct_accepted c arg k x d :
  super_init arg
  = Ok (Some (ComplianceBase.Build (VDict ((k, x) :: d)) k (mem k USER_ACTIONS)
                (mem k TWEET_ACTIONS) (mem k DROP_ACTIONS) (mem k GEO_ACTIONS)
                (mem k LIKE_ACTIONS))) ->
  k ∈ recognized -> k <> "delete" ->
  (k ∈ actions_of c -> succeeds (construct c arg)) /\
  (k ∉ actions_of c -> construct c arg = Raise WrongActionClass).
Proof.
  intros Hs Hk Hd.
  apply elem_of_recognized in Hk.
  rewrite elem_of_USER_ACTIONS, elem_of_TWEET_ACTIONS, elem_of_DROP_ACTIONS,
    elem_of_GEO_ACTIONS, elem_of_LIKE_ACTIONS in Hk.
  destruct c; simpl;
    [ unfold UserAction_init | unfold TweetAction_init | unfold DropAction_init
    | unfold ScrubGeoAction_init | unfold DeleteLikeAction_init ];
    rewrite Hs; clear Hs; simpl.
  all: repeat (destruct Hk as [Hk | Hk]); subst k; try congruence.
  all: split;
    first [ decide_mem | intros _; eexists; reflexivity | intros _; reflexivity ].
Qed.



(** The errors of the base constructor. *)
Lemma ComplianceBase_init_Raise v e :
  ComplianceBase_init v = Raise e ->
  e = MissingRecord \/ e = AttributeError "keys" \/ e = IndexError \/
  e = UnrecognizedAction.
Proof.
  unfold ComplianceBase_init.
  destruct v as [| | | | |[|[k x] d]]; simpl; try (intros [= <-]; tauto).
  destruct (Nat.eqb _ 1); simpl; intros [= <-]. tauto.
Qed.

Lemma super_init_Raise arg e :
  super_init arg = Raise e ->
  e = MissingRecord \/ e = AttributeError "keys" \/ e = IndexError \/
  e = UnrecognizedAction.
Proof.
  destruct arg as [o | v]; simpl.
  - destruct (ComplianceBase_init _) eqn:E; simpl; [discriminate|].
    intros [= <-]. exact (ComplianceBase_init_Raise _ _ E).
  - destruct (is_dict v); [|discriminate].
    destruct (ComplianceBase_init _) eqn:E; simpl; [discriminate|].
    intros [= <-]. exact (ComplianceBase_init_Raise _ _ E).
Qed.

(** Every outcome of a constructor of an action class. *)
Lemma construct_outcome c arg :
  succeeds (construct c arg) \/
  construct c arg = Raise WrongActionClass \/
  construct c arg = Raise (AttributeError (class_flag_name c)) \/
  (exists e, construct c arg = Raise e /\ super_init arg = Raise e).
Proof.
  destruct (super_init arg) as [[b|]|e] eqn:Hs.
  - pose proof (super_init_Ok_Some _ _ Hs) as (v & Hv & _).
    pose proof (ComplianceBase_init_Ok _ _ Hv) as (k & x & d & -> & -> & Hsum).
    assert (Hone : sum_flags (mem k <$> registry) = 1) by exact Hsum.
    apply one_class_flag in Hone as [Hk Hd].
    destruct (construct_accepted c _ _ _ _ Hs Hk Hd) as [Hin Hout].
    destruct (decide (k ∈ actions_of c)) as [Hc | Hc]; auto.
  - right; right; left.
    destruct c; simpl;
      [ unfold UserAction_init | unfold TweetAction_init | unfold DropAction_init
      | unfold ScrubGeoAction_init | unfold DeleteLikeAction_init ];
      rewrite Hs; reflexivity.
  - right; right; right. exists e. split; [|reflexivity].
    destruct c; simpl;
      [ unfold UserAction_init | unfold TweetAction_init | unfold DropAction_init
      | unfold ScrubGeoAction_init | unfold DeleteLikeAction_init ];
      rewrite Hs; reflexivity.
Qed.

(** X7. The sub-action check of the three constructors that have one
    (lines 221, 331, 395) never fires: no argument makes any of the five
    constructors raise that error. *)
Theorem sub_action_error_unreachable (c : action_class) (arg : pyarg) :
  construct c arg <> Raise UnrecognizedSubAction.
Proof.
  destruct (construct_outcome c arg) as [[o ->] | [-> | [-> | (e & -> & He)]]];
    try discriminate.
  apply super_init_Raise in He as [-> | [-> | [-> | ->]]]; discriminate.
Qed.





(** X10. On a constructed object of an action class every sub-action
    flag tells whether the action name is the name the flag stands for,
    and the action name is in the registry set of the class. *)
Theorem sub_action_flags_name_action (c : action_class) (arg : pyarg) (o : instance) :
  construct c arg = Ok o ->
  sub_action_flags o
  = String.eqb (ComplianceBase.action (base_of o)) <$> sub_action_names c /\
  ComplianceBase.action (base_of o) ∈ actions_of c.
Proof.
  intros H. split.
  - destruct c; simpl in H.
    + destruct (UserAction_init arg) as [u|] eqn:E; simpl in H; [|discriminate].
      injection H as <-. unfold UserAction_init in E. inv_init E. reflexivity.
    + destruct (TweetAction_init arg) as [u|] eqn:E; simpl in H; [|discriminate].
      injection H as <-. unfold TweetAction_init in E. inv_init E. reflexivity.
    + destruct (DropAction_init arg) as [u|] eqn:E; simpl in H; [|discriminate].
      injection H as <-. unfold DropAction_init in E. inv_init E. reflexivity.
    + destruct (ScrubGeoAction_init arg) as [u|] eqn:E; simpl in H; [|discriminate].
      injection H as <-. reflexivity.
    + destruct (DeleteLikeAction_init arg) as [u|] eqn:E; simpl in H; [|discriminate].
      injection H as <-. reflexivity.
  - apply construct_Ok in H as [_ H]. now apply mem_true.
Qed.

Lemma sub_action_flags_name_action_witness :
  exists o,
    construct User (ArgValue user_withheld_record) = Ok o /\
    sub_action_flags o = [ false; false; false; false; false; false; true ] /\
    ComplianceBase.action (base_of o) ∈ USER_ACTIONS.
Proof.
  eexists. split; [reflexivity|].
  destruct (sub_action_flags_name_action User (ArgValue user_withheld_record) _ eq_refl)
    as [Hf Ha].
  split; [reflexivity | exact Ha].
Defined.

(** ** Accessors, by sub-action *)

(** The object built from a dictionary whose first key is [k]. *)
Lemma construct_dict_Ok c k body rest o :
  construct c (ArgValue (VDict ((k, body) :: rest))) = Ok o ->
  base_of o
  = ComplianceBase.Build (VDict ((k, body) :: rest)) k (mem k USER_ACTIONS)
      (mem k TWEET_ACTIONS) (mem k DROP_ACTIONS) (mem k GEO_ACTIONS)
      (mem k LIKE_ACTIONS) /\
  k ∈ actions_of c /\ k <> "delete".
Proof.
  intros H.
  pose proof (constructed_base _ _ _ H) as (k' & x & d & Hb & Hc & _ & Hd & Hs & _).
  simpl in Hs. rewrite ComplianceBase_init_dict in Hs.
  destruct (Nat.eqb _ 1); simpl in Hs; [|discriminate].
  injection Hs as Hs. rewrite <- Hs in Hb. injection Hb as -> _ _.
  rewrite <- Hs. auto.
Qed.

(** Every path of an accessor starts with the action name, the first
    key: the accessors read inside the value under that key. *)
Lemma get_value_action_body k body rest fu ft fd fg fl path :
  get_value (ComplianceBase.Build (VDict ((k, body) :: rest)) k fu ft fd fg fl)
    (k :: path)
  = get_dict_val body path.
Proof.
  unfold get_value. simpl. now rewrite String.eqb_refl.
Qed.

Ltac view_of_dict H c :=
  let Ho := fresh "Ho" in
  match type of H with
  | ?init (ArgValue (VDict ((?k, ?body) :: ?rest))) = Ok ?t =>
      assert (Ho : exists o, construct c (ArgValue (VDict ((k, body) :: rest))) = Ok o)
        by (eexists; simpl; rewrite H; reflexivity);
      destruct Ho as [? Ho];
      apply construct_dict_Ok in Ho as (_ & Ho & ?);
      apply elem_of_actions_of in Ho
  end.

(** X11. What the accessors of a [TweetAction] built from a dictionary
    read, [body] being the value under the first key.  For a withheld
    status: the ids under [status], the countries, and a null edit
    chain.  For an edit: the edit chain from [id], [initial_tweet_id]
    and [edit_tweet_ids], the tweet id from [id] under a further
    [tweet_edit] key, and null for the user id and the countries.
    There is no third case. *)
Theorem TweetAction_accessors (k : string) (body : value) (rest : list (string * value))
    (t : TweetAction.t) :
  TweetAction_init (ArgValue (VDict ((k, body) :: rest))) = Ok t ->
  (k = "status_withheld" /\
   TweetAction_get_tweet_id t = get_dict_val body [ "status"; "id_str" ] /\
   TweetAction_get_user_id t = get_dict_val body [ "status"; "user_id_str" ] /\
   TweetAction_get_withheld_countries t = get_dict_val body [ "withheld_in_countries" ] /\
   TweetAction_get_edit_tweet_ids t = (VNone, VNone, VNone)) \/
  (k = "tweet_edit" /\
   TweetAction_get_tweet_id t = get_dict_val body [ "tweet_edit"; "id" ] /\
   TweetAction_get_user_id t = VNone /\
   TweetAction_get_withheld_countries t = VNone /\
   TweetAction_get_edit_tweet_ids t
   = (get_dict_val body [ "id" ], get_dict_val body [ "initial_tweet_id" ],
      get_dict_val body [ "edit_tweet_ids" ])).
Proof.
  intros H. view_of_dict H Tweet.
  destruct Ho as [-> | [-> | ->]]; [congruence | right | left];
    vm_compute in H; injection H as <-; repeat split.
Qed.

Lemma TweetAction_accessors_witness :
  exists t,
    TweetAction_init (ArgValue tweet_edit_record) = Ok t /\
    TweetAction_get_edit_tweet_ids t
    = (VStr "999", VStr "111", VList [ VStr "111"; VStr "555"; VStr "999" ]) /\
    TweetAction_get_withheld_countries t = VNone.
Proof.
  eexists. split; [reflexivity|].
  destruct (TweetAction_accessors "tweet_edit"
              (VDict [ ("id", VStr "999"); ("initial_tweet_id", VStr "111");
                       ("edit_tweet_ids", VList [ VStr "111"; VStr "555"; VStr "999" ]);
                       ("timestamp_ms", VStr "1610000000123") ]) [] _ eq_refl)
    as [(Hk & _) | (_ & _ & _ & Hc & He)].
  - discriminate Hk.
  - split; [exact He | exact Hc].
Defined.

(** X12. What the accessors of a [UserAction] built from a dictionary
    read, [body] being the value under the first key.  In the withheld
    case the user id is the value at [user], [id_str] and the countries
    are the value at [withheld_in_countries].  In the six other cases
    the countries are null whatever the record holds, and the user id
    is the text of the value at [id]: a string as it is, an integer
    (below the interpreter's limit of 4300 digits) in decimal, and the
    four letters [None] for a missing or null [id]. *)
Theorem UserAction_accessors (k : string) (body : value) (rest : list (string * value))
    (u : UserAction.t) :
  UserAction_init (ArgValue (VDict ((k, body) :: rest))) = Ok u ->
  (k = "user_withheld" /\
   UserAction_get_user_id u = get_dict_val body [ "user"; "id_str" ] /\
   UserAction_get_withheld_countries u = get_dict_val body [ "withheld_in_countries" ]) \/
  (k ∈ USER_ACTIONS /\ k <> "user_withheld" /\
   UserAction_get_withheld_countries u = VNone /\
   (forall s, get_dict_val body [ "id" ] = VStr s -> UserAction_get_user_id u = VStr s) /\
   (forall n, get_dict_val body [ "id" ] = VInt n -> (Z.abs n < 10 ^ 4300)%Z ->
              UserAction_get_user_id u = VStr (str_int n)) /\
   (get_dict_val body [ "id" ] = VNone -> UserAction_get_user_id u = VStr "None")).
Proof.
  intros H. view_of_dict H User.
  repeat (destruct Ho as [Ho | Ho]); subst k.
  7: left; vm_compute in H; injection H as <-; repeat split.
  all: right; split; [apply elem_of_USER_ACTIONS; tauto|];
    split; [discriminate|];
    vm_compute in H; injection H as <-;
    split; [reflexivity|].
  all: match goal with
       | |- context [UserAction_get_user_id ?v] =>
           assert (Hid : UserAction_get_user_id v = VStr (str (get_dict_val body [ "id" ])))
             by reflexivity
       end.
  all: rewrite Hid; repeat split; [intros s Hs | intros n Hn _ | intros Hn];
    rewrite ?Hs, ?Hn; reflexivity.
Qed.

Lemma UserAction_accessors_witness :
  exists u,
    UserAction_init (ArgValue user_delete_record) = Ok u /\
    UserAction_get_user_id u = VStr "12" /\
    UserAction_get_withheld_countries u = VNone.
Proof.
  eexists. split; [reflexivity|].
  destruct (UserAction_accessors "user_delete"
              (VDict [ ("id", VInt 12); ("timestamp_ms", VStr "1610000000123") ]) [] _
              eq_refl)
    as [(Hk & _) | (_ & _ & Hc & _ & Hi & _)].
  - discriminate Hk.
  - split; [|exact Hc]. apply (Hi 12%Z); [reflexivity|]. vm_compute. reflexivity.
Defined.

(** X13. The two accessors of a [DropAction] built from a dictionary
    read the ids under [status] of the value under the first key, in
    the same way for [drop] and [undrop]. *)
Theorem DropAction_accessors (k : string) (body : value) (rest : list (string * value))
    (d : DropAction.t) :
  DropAction_init (ArgValue (VDict ((k, body) :: rest))) = Ok d ->
  (k = "drop" \/ k = "undrop") /\
  DropAction_get_tweet_id d = get_dict_val body [ "status"; "id_str" ] /\
  DropAction_get_user_id d = get_dict_val body [ "status"; "user_id_str" ].
Proof.
  intros H. view_of_dict H Drop. split; [exact Ho|].
  destruct Ho as [-> | ->]; vm_compute in H; injection H as <-; split; reflexivity.
Qed.

Lemma DropAction_accessors_witness :
  exists d,
    DropAction_init (ArgValue drop_record) = Ok d /\
    DropAction_get_tweet_id d = VStr "42" /\ DropAction_get_user_id d = VStr "7".
Proof.
  eexists. split; [reflexivity|].
  exact (proj2 (DropAction_accessors "drop"
                  (VDict [ ("status", VDict [ ("id_str", VStr "42");
                                              ("user_id_str", VStr "7") ]);
                           ("timestamp_ms", VStr "1610000000123") ]) [] _ eq_refl)).
Defined.

(** X14. A [ScrubGeoAction] is built from a dictionary only when the
    first key is [scrub_geo], and its accessors read [user_id_str] and
    [up_to_status_id_str] directly under that key. *)
Theorem ScrubGeoAction_accessors (k : string) (body : value)
    (rest : list (string * value)) (g : ScrubGeoAction.t) :
  ScrubGeoAction_init (ArgValue (VDict ((k, body) :: rest))) = Ok g ->
  k = "scrub_geo" /\
  ScrubGeoAction_get_user_id g = get_dict_val body [ "user_id_str" ] /\
  ScrubGeoAction_get_up_to_status_id g = get_dict_val body [ "up_to_status_id_str" ].
Proof.
  intros H. view_of_dict H Scrub_geo. subst k. split; [reflexivity|].
  vm_compute in H. injection H as <-. split; reflexivity.
Qed.

Lemma ScrubGeoAction_accessors_witness :
  exists g,
    ScrubGeoAction_init (ArgValue scrub_geo_record) = Ok g /\
    ScrubGeoAction_get_user_id g = VStr "7" /\
    ScrubGeoAction_get_up_to_status_id g = VStr "42".
Proof.
  eexists. split; [reflexivity|].
  exact (proj2 (ScrubGeoAction_accessors "scrub_geo"
                  (VDict [ ("user_id_str", VStr "7"); ("up_to_status_id_str", VStr "42");
                           ("timestamp_ms", VStr "1610000000123") ]) [] _ eq_refl)).
Defined.

(** ** [get_timestamp] on constructed objects *)

(** X15. On an object of an action class, outside the withheld case of
    [UserAction], the string mode of [get_timestamp] calls nothing of
    the runtime and cannot fail: it returns the value at
    [[action, "timestamp_ms"]] as the record has it, be it a string, a
    number or, for a record without the field, the null of the
    lookup. *)
Theorem get_timestamp_string_mode (R : runtime) (c : action_class) (arg : pyarg)
    (o : instance) :
  construct c arg = Ok o ->
  ComplianceBase.action (base_of o) <> "user_withheld" ->
  get_timestamp R o false
  = Ok (TimeValue
          (get_value (base_of o) [ ComplianceBase.action (base_of o); "timestamp_ms" ])).
Proof.
  intros H Hw.
  pose proof (constructed_base _ _ _ H) as (k & x & d & Hb & Hc & _ & Hd & _).
  destruct c; simpl in H.
  - destruct (UserAction_init arg) as [u|] eqn:E; simpl in H; [|discriminate].
    injection H as <-. apply UserAction_init_Ok in E as (_ & _ & Hf & _).
    apply get_timestamp_stored. right. exists u. split; [reflexivity|].
    rewrite Hf. now apply String.eqb_neq.
  - apply get_timestamp_stored. left. rewrite Hb. simpl. apply mem_false.
    intros Hu. discriminate (actions_of_unique Tweet User k Hc Hu Hd).
  - apply get_timestamp_stored. left. rewrite Hb. simpl. apply mem_false.
    intros Hu. discriminate (actions_of_unique Drop User k Hc Hu Hd).
  - apply get_timestamp_stored. left. rewrite Hb. simpl. apply mem_false.
    intros Hu. discriminate (actions_of_unique Scrub_geo User k Hc Hu Hd).
  - apply get_timestamp_stored. left. rewrite Hb. simpl. apply mem_false.
    intros Hu. discriminate (actions_of_unique Like User k Hc Hu Hd).
Qed.

Lemma get_timestamp_string_mode_witness :
  exists o,
    construct User (ArgValue user_delete_without_id) = Ok o /\
    get_timestamp no_runtime o false = Ok (TimeValue (VStr "1610000000123")).
Proof.
  eexists. split; [reflexivity|].
  rewrite (get_timestamp_string_mode no_runtime User
             (ArgValue user_delete_without_id) _ eq_refl);
    [reflexivity | discriminate].
Defined.

(** X16. On an instance of [ComplianceBase] itself, [get_timestamp]
    raises an [AttributeError] in both modes when the record is a user
    action of any kind, the withheld one included; for every other
    record the base constructor accepts, the string mode returns the
    value at [[action, "timestamp_ms"]]. *)
Theorem get_timestamp_on_base (R : runtime) (v : value) (b : ComplianceBase.t) :
  ComplianceBase_init v = Ok b ->
  (ComplianceBase.action b ∈ USER_ACTIONS ->
   forall as_datetime,
     get_timestamp R (IBase b) as_datetime = Raise (AttributeError "is_user_withheld")) /\
  (ComplianceBase.action b ∉ USER_ACTIONS ->
   get_timestamp R (IBase b) false
   = Ok (TimeValue (get_value b [ ComplianceBase.action b; "timestamp_ms" ]))).
Proof.
  intros H. apply ComplianceBase_init_Ok in H as (k & x & d & _ & -> & _).
  simpl. split; intros Hk.
  - intros m. apply get_timestamp_base_user. simpl. now apply mem_true.
  - apply get_timestamp_stored. left. simpl. now apply mem_false.
Qed.

Lemma get_timestamp_on_base_witness :
  exists b,
    ComplianceBase_init user_withheld_record = Ok b /\
    get_timestamp no_runtime (IBase b) true
    = Raise (AttributeError "is_user_withheld").
Proof.
  eexists. split; [reflexivity|].
  apply (proj1 (get_timestamp_on_base no_runtime user_withheld_record _ eq_refl)).
  apply elem_of_USER_ACTIONS. tauto.
Defined.
